(** * OV-DINO demo application ([ovdino/demo/app.py])

    A shallow embedding of the request-handling glue of the demo: the
    category-text normaliser at the head of [gradio_predict], the
    post-processing of the detections into JSON records, the start-up
    script that loads the models and builds the form, and the two button
    handlers (submit and clear).

    Python values are modelled as follows.
    - [str] is [string]; the separator [", "] is ASCII, so splitting the
      UTF-8 bytes and splitting the code points give the same pieces.
    - [dict] with string keys is [gmap string _].
    - [float] scores and thresholds are rationals [Qc]; only comparisons and
      the literal [0.5] are used.
    - A raised exception is the left injection of a sum; the calls that
      leave the file (detector, model loading, [app.launch]) are recorded in
      a trace of events. *)

From Stdlib Require Import ZArith QArith Qcanon String Ascii.
From stdpp Require Import base option list numbers strings gmap.

Local Open Scope string_scope.
Local Open Scope list_scope.
Local Open Scope stdpp_scope.

(** ** Python built-ins used by the script *)

Module Py.

(** Exceptions that the modelled code can raise. [External] stands for
    any exception raised inside a library call. *)
Inductive exn : Type :=
  | ValueError
  | KeyError (key : string)
  | IndexError
  | TypeError
  | External (what : string).

(** [s.startswith(p)] *)
Fixpoint startswith (p s : string) : bool :=
  match p with
  | EmptyString => true
  | String a p' =>
      match s with
      | EmptyString => false
      | String b s' => if decide (a = b) then startswith p' s' else false
      end
  end.

(** The scanning loop of [str.split(sep)] for a non-empty [sep]: [cur] is
    the piece being accumulated, [skip] the number of characters of a
    matched separator that are still to be passed over. *)
Fixpoint split_from (sep : string) (skip : nat) (cur s : string) : list string :=
  match s with
  | EmptyString => [cur]
  | String c rest =>
      match skip with
      | S k => split_from sep k cur rest
      | O =>
          if startswith sep s
          then cur :: split_from sep (String.length sep - 1) "" rest
          else split_from sep 0 (cur +:+ String c "") rest
      end
  end.

(** [s.split(sep)]; an empty separator raises [ValueError]. *)
Definition str_split (s sep : string) : exn + list string :=
  match sep with
  | EmptyString => inl ValueError
  | String _ _ => inr (split_from sep 0 "" s)
  end.

(** [sep.join(pieces)] *)
Fixpoint str_join (sep : string) (pieces : list string) : string :=
  match pieces with
  | [] => ""
  | p :: rest =>
      match rest with
      | [] => p
      | _ :: _ => p +:+ sep +:+ str_join sep rest
      end
  end.

(** Number of positions of [s] at which [p] occurs. *)
Fixpoint occurrences (p s : string) : nat :=
  match s with
  | EmptyString => 0
  | String _ s' => (if startswith p s then 1 else 0) + occurrences p s'
  end.

(** [l[i]] for a Python list: a negative index counts from the end, an
    index outside [-len(l) .. len(l)-1] raises [IndexError]. *)
Definition list_index {A} (l : list A) (i : Z) : exn + A :=
  let n := Z.of_nat (length l) in
  let j := if decide (i < 0)%Z then (i + n)%Z else i in
  if decide (0 ≤ j < n)%Z
  then match l !! Z.to_nat j with Some x => inr x | None => inl IndexError end
  else inl IndexError.

(** [d[k]] *)
Definition dict_get {V} (d : gmap string V) (k : string) : exn + V :=
  match d !! k with
  | Some v => inr v
  | None => inl (KeyError k)
  end.

(** [del d[k]] *)
Definition dict_del {V} (d : gmap string V) (k : string) : exn + gmap string V :=
  match d !! k with
  | Some _ => inr (delete k d)
  | None => inl (KeyError k)
  end.

End Py.

(** ** Data model *)

Set Warnings "-register-all".

(** JSON values as they appear in the records shown by the [gr.JSON]
    component. *)
Inductive JSON : Type :=
  | JInt (z : Z)
  | JNum (q : Qc)
  | JStr (s : string)
  | JList (items : list JSON)
  | JDict (items : list (string * JSON)).

(** An image as a height x width x channel array. *)
Definition Image : Type := list (list (list Z)).

(** [np.array(image)]: the form hands over a PIL image, or [None] when no
    image was uploaded, which numpy wraps as a 0-d object array. *)
Inductive ndarray : Type :=
  | NdPixels (px : Image)
  | NdObject.

Definition np_array (image : option Image) : ndarray :=
  match image with
  | Some px => NdPixels px
  | None => NdObject
  end.

(** [a[:, :, ::-1]] *)
Definition reverse_channels (a : Image) : Image := map (map (@rev Z)) a.

(** Decimal literals: [frac n d] is the number [n/d]. *)
Definition frac (n : Z) (d : positive) : Qc := Q2Qc (n # d)%Q.

(** The literal [0.5]. *)
Definition half : Qc := frac 5 10.

(** [SAM2ImagePredictor(sam_model)] *)
Record SAM2ImagePredictor (SamModel : Type) : Type :=
  { sam_model : SamModel }.
Arguments sam_model {SamModel} _.

(** The object built by [OVDINODemo(model=..., sam_predictor=..., ...)]:
    the constructor arguments it is given. *)
Record OVDINODemo (Model SamModel : Type) : Type := {
  model : Model;
  sam_predictor : option (SAM2ImagePredictor SamModel);
  min_size_test : Z;
  max_size_test : Qc;
  img_format : string;
  metadata_dataset : string;
}.
Arguments model {Model SamModel} _.
Arguments sam_predictor {Model SamModel} _.
Arguments min_size_test {Model SamModel} _.
Arguments max_size_test {Model SamModel} _.
Arguments img_format {Model SamModel} _.
Arguments metadata_dataset {Model SamModel} _.

(** The collaborators that [app.py] imports and calls: detectron2's lazy
    configuration, model instantiation and checkpoint loading, SAM2,
    the metadata catalogue, detrex's phrase cleaner, the demo predictor and
    the COCO serialiser.  Each fallible call returns an exception or a
    value. *)
Class Collaborators : Type := {
  Config : Type;
  Model : Type;
  SamModel : Type;
  Instances : Type;
  (** [LazyConfig.load(path)] *)
  LazyConfig_load : string → Py.exn + Config;
  (** [LazyConfig.apply_overrides(cfg, opts)] *)
  LazyConfig_apply_overrides : Config → option (list string) → Py.exn + Config;
  (** [instantiate(cfg.model)] *)
  instantiate : Config → Py.exn + Model;
  (** [model.to(cfg.train.device)] *)
  model_to : Model → Config → Py.exn + Model;
  (** [DetectionCheckpointer(model).load(cfg.train.init_checkpoint)] *)
  checkpointer_load : Model → Config → Py.exn + Model;
  (** [model.eval()] *)
  model_eval : Model → Model;
  (** whether [from sam2... import ...] succeeded *)
  SAM2_AVAILABLE : bool;
  (** [build_sam2(config, checkpoint, device="cuda")] *)
  build_sam2 : string → option string → Py.exn + SamModel;
  (** [MetadataCatalog.get(name).thing_classes] *)
  thing_classes : string → Py.exn + list string;
  (** [detrex.data.datasets.clean_words_or_phrase] *)
  clean_words_or_phrase : string → string;
  (** [demo.run_on_image(image, category_names, score_thr, with_segmentation)],
      returning the [predictions] dict and the rendered image *)
  run_on_image :
    OVDINODemo Model SamModel → ndarray → list string → Qc → bool →
    Py.exn + (gmap string Instances * Image);
  (** [instances_to_coco_json(instances.to(cpu), img_id)] *)
  instances_to_coco_json : Instances → Z → list (gmap string JSON);
}.

(** ** Exceptions and the trace of outside calls *)

(** What the process does that is visible from outside the script: an
    inference call on the demo object, and the launch of the server. *)
Inductive event `{Collaborators} : Type :=
  | EvInference (demo : OVDINODemo Model SamModel) (image : ndarray)
      (category_names : list string) (score_thr : Qc) (with_segmentation : bool)
  | EvLaunch.

(** A computation yields the events it caused and either the exception
    that stopped it or its value. *)
Definition M `{Collaborators} (A : Type) : Type := (list event * (Py.exn + A))%type.

#[global] Instance exn_ret : MRet (sum Py.exn) := λ A a, inr a.
#[global] Instance exn_bind : MBind (sum Py.exn) := λ A B f m,
  match m with
  | inl e => inl e
  | inr a => f a
  end.

#[global] Instance M_ret `{Collaborators} : MRet M := λ A a, ([], inr a).
#[global] Instance M_bind `{Collaborators} : MBind M := λ A B f m,
  match m with
  | (tr, inl e) => (tr, inl e)
  | (tr, inr a) => let '(tr', r) := f a in (tr ++ tr', r)
  end.

Definition lift `{Collaborators} {A} (r : Py.exn + A) : M A := ([], r).
Definition emit `{Collaborators} (e : event) : M () := ([e], inr ()).

(** The events of a computation and its outcome. *)
Definition trace `{Collaborators} {A} (m : M A) : list event := m.1.
Definition outcome `{Collaborators} {A} (m : M A) : Py.exn + A := m.2.

(** ** The request handler [gradio_predict] *)

(** Lines 132-135: [text.split(", ")] followed by the list comprehension
    that cleans every piece. *)
Definition normalize `{Collaborators} (text : string) : Py.exn + list string :=
  category_names ← Py.str_split text ", ";
  mret (map clean_words_or_phrase category_names).

(** Lines 144-146, the body of the loop over [json_results]. *)
Definition annotate (category_names : list string) (json_result : gmap string JSON)
    : Py.exn + gmap string JSON :=
  category_id ← Py.dict_get json_result "category_id";
  name ← match category_id with
         | JInt i => Py.list_index category_names i
         | _ => inl Py.TypeError
         end;
  let json_result := <["category_name" := JStr name]> json_result in
  Py.dict_del json_result "image_id".

(** The call [demo.run_on_image(...)], recorded in the trace. *)
Definition call_run_on_image `{Collaborators} (demo : OVDINODemo Model SamModel)
    (image : ndarray) (category_names : list string) (score_thr : Qc)
    (with_segmentation : bool) : M (gmap string Instances * Image) :=
  _ ← emit (EvInference demo image category_names score_thr with_segmentation);
  lift (run_on_image demo image category_names score_thr with_segmentation).

Definition gradio_predict `{Collaborators} (demo : OVDINODemo Model SamModel)
    (image : option Image) (text : string) (score_thr : Qc)
    (with_segmentation : bool) : M (Image * list (gmap string JSON)) :=
  category_names ← lift (normalize text);
  let image := np_array image in
  '(predictions, visualized_output) ←
    call_run_on_image demo image category_names score_thr with_segmentation;
  instances ← lift (Py.dict_get predictions "instances");
  let json_results := instances_to_coco_json instances 0 in
  json_results ← lift (mapM (annotate category_names) json_results);
  mret (reverse_channels visualized_output, json_results).

(** ** Command line *)

Module Args.
(** The namespace returned by [get_parser().parse_args()]. *)
Record t : Type := {
  config_file : string;
  sam_config_file : option string;
  sam_init_checkpoint : option string;
  min_size_test : Z;
  max_size_test : Qc;
  img_format : string;
  metadata_dataset : string;
  confidence_threshold : Qc;
  opts : option (list string);
}.

(** The defaults declared in [get_parser]. *)
Definition defaults : t := {|
  config_file := "projects/dino/configs/dino_r50_4scale_12ep.py";
  sam_config_file := None;
  sam_init_checkpoint := None;
  min_size_test := 800;
  max_size_test := frac 1333 1;
  img_format := "RGB";
  metadata_dataset := "coco_2017_val";
  confidence_threshold := half;
  opts := None;
|}.

Definition with_confidence_threshold (q : Qc) (a : t) : t := {|
  config_file := config_file a;
  sam_config_file := sam_config_file a;
  sam_init_checkpoint := sam_init_checkpoint a;
  min_size_test := min_size_test a;
  max_size_test := max_size_test a;
  img_format := img_format a;
  metadata_dataset := metadata_dataset a;
  confidence_threshold := q;
  opts := opts a;
|}.
End Args.

(** ** The form *)

Module Form.

(** The components of the [gr.Blocks] layout, by the variable each is
    bound to. *)
Inductive component : Type :=
  | image | input_text | submit | clear | score_thr
  | with_segmentation | output_image | json_results.

#[global] Instance component_eq_dec : EqDecision component.
Proof. solve_decision. Defined.

(** Values held by components and passed as keyword arguments. *)
Inductive Value : Type :=
  | VNone
  | VBool (b : bool)
  | VNum (q : Qc)
  | VStr (s : string)
  | VImage (px : Image)
  | VJson (records : list (gmap string JSON)).

Inductive Kind : Type := Image_ | Textbox | Button | Slider | Checkbox | JSON_.

(** A component object: its class and the keyword arguments its
    constructor was called with. *)
Record Block : Type := { kind : Kind; constructor_args : gmap string Value }.

(** Lines 188-215: the components as constructed. *)
Definition blocks (sam2_available : bool) (coco_categories : string)
    (c : component) : Block :=
  match c with
  | image =>
      {| kind := Image_;
         constructor_args := {[ "type" := VStr "pil"; "label" := VStr "input image" ]} |}
  | input_text =>
      {| kind := Textbox;
         constructor_args :=
           {[ "lines" := VNum (frac 7 1);
              "label" := VStr "Enter the classes to be detected, separated by comma";
              "value" := VStr coco_categories;
              "elem_id" := VStr "textbox" ]} |}
  | submit => {| kind := Button; constructor_args := {[ "value" := VStr "Submit" ]} |}
  | clear => {| kind := Button; constructor_args := {[ "value" := VStr "Clear" ]} |}
  | score_thr =>
      {| kind := Slider;
         constructor_args :=
           {[ "minimum" := VNum (frac 0 1);
              "maximum" := VNum (frac 1 1);
              "value" := VNum half;
              "step" := VNum (frac 1 100);
              "interactive" := VBool true;
              "label" := VStr "Score Threshold" ]} |}
  | with_segmentation =>
      {| kind := Checkbox;
         constructor_args :=
           {[ "label" := VStr "With Segmentation (OV-SAM = OV-DINO + SAM2)";
              "visible" := VBool sam2_available ]} |}
  | output_image =>
      {| kind := Image_;
         constructor_args := {[ "type" := VStr "pil"; "label" := VStr "output image" ]} |}
  | json_results =>
      {| kind := JSON_; constructor_args := {[ "label" := VStr "JSON Results" ]} |}
  end.

(** The toolkit's defaults for the properties the script leaves out: a
    component is visible, a checkbox is unchecked, the other values are
    empty. *)
Definition default_props (k : Kind) : gmap string Value :=
  {[ "value" := match k with Checkbox => VBool false | _ => VNone end;
     "visible" := VBool true ]}.

(** The properties a component starts with: the constructor's arguments
    over the defaults. *)
Definition initial_props (b : Block) : gmap string Value :=
  constructor_args b ∪ default_props (kind b).

(** The state of the form: the current properties of every component. *)
Definition state : Type := component → gmap string Value.

(** What an event handler returns for one output component: a plain value,
    or a component object. *)
Inductive Output : Type :=
  | OutValue (v : Value)
  | OutBlock (b : Block).

(** How the toolkit applies a returned output: a plain value becomes the
    component's value; a component object updates exactly the properties
    its constructor was given and leaves the others as they are. *)
Definition apply_output (o : Output) (props : gmap string Value) : gmap string Value :=
  match o with
  | OutValue v => <["value" := v]> props
  | OutBlock b => constructor_args b ∪ props
  end.

Definition update (c : component) (f : gmap string Value → gmap string Value)
    (st : state) : state :=
  λ c', if decide (c' = c) then f (st c') else st c'.

Fixpoint set_outputs (outputs : list component) (returned : list Output)
    (st : state) : state :=
  match outputs, returned with
  | c :: outputs', o :: returned' =>
      set_outputs outputs' returned' (update c (apply_output o) st)
  | _, _ => st
  end.

Definition value (st : state) (c : component) : Value :=
  default VNone (st c !! "value").

Definition visible (st : state) (c : component) : bool :=
  match st c !! "visible" with
  | Some (VBool b) => b
  | _ => true
  end.

(** Lines 221-225: the function given to [clear.click] and its outputs. *)
Definition clear_fn (sam2_available : bool) (coco_categories : string) : list Output :=
  [ OutValue VNone; OutValue (VStr coco_categories); OutValue (VNum half);
    OutBlock (blocks sam2_available coco_categories json_results);
    OutBlock (blocks sam2_available coco_categories with_segmentation) ].

Definition clear_outputs : list component :=
  [image; input_text; score_thr; json_results; with_segmentation].

(** Lines 216-220: the inputs and outputs of [submit.click]. *)
Definition submit_outputs : list component := [output_image; json_results].

End Form.

(** ** Start-up ([__main__]) and serving *)

(** What the running server holds once [app.launch] is reached. *)
Record App `{Collaborators} : Type := {
  demo : OVDINODemo Model SamModel;
  coco_categories : string;
}.

(** Lines 30-33. *)
Definition setup `{Collaborators} (args : Args.t) : Py.exn + Config :=
  cfg ← LazyConfig_load (Args.config_file args);
  LazyConfig_apply_overrides cfg (Args.opts args).

(** Lines 104-226.  An exception raised by any step ends the script there;
    [app.launch] is its last statement. *)
Definition main `{Collaborators} (args : Args.t) : M App :=
  cfg ← lift (setup args);
  model ← lift (instantiate cfg);
  model ← lift (model_to model cfg);
  model ← lift (checkpointer_load model cfg);
  let model := model_eval model in
  sam_predictor ←
    match Args.sam_config_file args, SAM2_AVAILABLE with
    | Some sam_config, true =>
        sam_model ← lift (build_sam2 sam_config (Args.sam_init_checkpoint args));
        mret (Some {| sam_model := sam_model |})
    | _, _ => mret None
    end;
  let demo :=
    {| model := model;
       sam_predictor := sam_predictor;
       min_size_test := Args.min_size_test args;
       max_size_test := Args.max_size_test args;
       img_format := Args.img_format args;
       metadata_dataset := Args.metadata_dataset args |} in
  classes ← lift (thing_classes (Args.metadata_dataset args));
  let coco_categories := Py.str_join ", " classes in
  _ ← emit EvLaunch;
  mret {| demo := demo; coco_categories := coco_categories |}.

(** The form as first displayed. *)
Definition initial_state `{Collaborators} (app : App) : Form.state :=
  λ c, Form.initial_props (Form.blocks SAM2_AVAILABLE (coco_categories app) c).

(** What a user can do with the form: change the value of an input
    component, or press a button.  (Picking one of the [gr.Examples] rows
    is an edit of [image] and of [input_text].) *)
Inductive action : Type :=
  | Edit (c : Form.component) (v : Form.Value)
  | Click (c : Form.component).

Definition editable (c : Form.component) : bool :=
  match c with
  | Form.image | Form.input_text | Form.score_thr | Form.with_segmentation => true
  | _ => false
  end.

Definition as_image (v : Form.Value) : option Image :=
  match v with Form.VImage px => Some px | _ => None end.
Definition as_text (v : Form.Value) : string :=
  match v with Form.VStr s => s | _ => "" end.
Definition as_number (v : Form.Value) : Qc :=
  match v with Form.VNum q => q | _ => 0%Qc end.
Definition as_bool (v : Form.Value) : bool :=
  match v with Form.VBool b => b | _ => false end.

(** One user action.  A hidden component cannot be edited.  [submit] runs
    [gradio_predict] on the current inputs; when it raises, the error is
    shown ([show_error=True]) and the form is left as it is.  [clear]
    returns [Form.clear_fn] without reading any input. *)
Definition handle `{Collaborators} (app : App) (st : Form.state) (a : action)
    : M Form.state :=
  match a with
  | Edit c v =>
      mret (if editable c && Form.visible st c
            then Form.update c (insert "value" v) st
            else st)
  | Click Form.submit =>
      let '(tr, r) :=
        gradio_predict (demo app)
          (as_image (Form.value st Form.image))
          (as_text (Form.value st Form.input_text))
          (as_number (Form.value st Form.score_thr))
          (as_bool (Form.value st Form.with_segmentation)) in
      match r with
      | inr (output, records) =>
          (tr, inr (Form.set_outputs Form.submit_outputs
                      [Form.OutValue (Form.VImage output);
                       Form.OutValue (Form.VJson records)] st))
      | inl _ => (tr, inr st)
      end
  | Click Form.clear =>
      mret (Form.set_outputs Form.clear_outputs
              (Form.clear_fn SAM2_AVAILABLE (coco_categories app)) st)
  | Click _ => mret st
  end.

Fixpoint serve `{Collaborators} (app : App) (st : Form.state) (actions : list action)
    : M Form.state :=
  match actions with
  | [] => mret st
  | a :: rest => st' ← handle app st a; serve app st' rest
  end.

(** The whole process: start up, then serve the user's actions. *)
Definition process `{Collaborators} (args : Args.t) (actions : list action)
    : M Form.state :=
  app ← main args;
  serve app (initial_state app) actions.

(** ** Collaborators that are not part of [app.py] *)

Module Reference.

(** One detected instance: box corners, confidence, class index and, after
    segmentation, a run-length encoded mask (height, width, counts). *)
Record Prediction : Type := {
  pred_box : Qc * Qc * Qc * Qc;
  score : Qc;
  pred_class : Z;
  pred_mask : option (Z * Z * string);
}.

(** detectron2's [instances_to_coco_json]: one dict per instance, with the
    box converted from corners to corner, width and height. *)
Definition to_coco_json (instances : list Prediction) (img_id : Z)
    : list (gmap string JSON) :=
  map (λ p,
         let '(x1, y1, x2, y2) := pred_box p in
         let result : gmap string JSON :=
           {[ "image_id" := JInt img_id;
              "category_id" := JInt (pred_class p);
              "bbox" := JList [JNum x1; JNum y1; JNum (x2 - x1)%Qc; JNum (y2 - y1)%Qc];
              "score" := JNum (score p) ]} in
         match pred_mask p with
         | Some (h, w, counts) =>
             <["segmentation" :=
                 JDict [("size", JList [JInt h; JInt w]); ("counts", JStr counts)]]> result
         | None => result
         end)
      instances.

Definition is_space (c : ascii) : bool :=
  bool_decide (c = " "%char ∨ c = "009"%char ∨ c = "010"%char ∨ c = "013"%char).

Definition lower (c : ascii) : ascii :=
  let n := N_of_ascii c in
  if ((65 <=? n) && (n <=? 90))%N then ascii_of_N (n + 32) else c.

Fixpoint squeeze (cs : list ascii) : list ascii :=
  match cs with
  | [] => []
  | c :: rest =>
      match rest with
      | d :: _ => if is_space c && is_space d then squeeze rest else c :: squeeze rest
      | [] => [c]
      end
  end.

Fixpoint lstrip (cs : list ascii) : list ascii :=
  match cs with
  | [] => []
  | c :: rest => if is_space c then lstrip rest else cs
  end.

(** Modelled from the spec: [clean_words_or_phrase] of detrex.data.datasets,
    which is not among the sources.  Section 4.1: cleaning removes leading
    and trailing whitespace and normalises punctuation and casing artifacts
    (stray periods, extra spaces) without altering word order. *)
Definition clean (name : string) : string :=
  let cs := list_ascii_of_string name in
  let cs := filter (λ c, c ≠ "."%char) cs in
  let cs := map lower cs in
  let cs := squeeze cs in
  string_of_list_ascii (rev (lstrip (rev (lstrip cs)))).

Section Detector.
(** The networks and the renderer are opaque: the raw scored detections
    of the model, the mask of SAM2 for one box, and the drawing. *)
Context {Model SamModel : Type}.
Variable detect : Model → Image → list string → list Prediction.
Variable segment : SamModel → Image → Qc * Qc * Qc * Qc → Z * Z * string.
Variable render : Image → list string → list Prediction → Image.

Definition with_mask (sam : SamModel) (image : Image) (p : Prediction) : Prediction :=
  {| pred_box := pred_box p;
     score := score p;
     pred_class := pred_class p;
     pred_mask := Some (segment sam image (pred_box p)) |}.

(** Modelled from the spec: [OVDINODemo.run_on_image] of demo/predictors.py,
    which is not among the sources.  Sections 4.2-4.4 and the glossary: the
    detector returns scored predictions; the threshold supplied per call
    is the minimum score a prediction needs to be returned; when
    segmentation is requested and its model is available every kept
    prediction receives a mask, box and score unchanged, and otherwise the
    toggle is inert; an image that cannot be processed is a request-level
    error. *)
Definition spec_run_on_image (demo : OVDINODemo Model SamModel) (image : ndarray)
    (category_names : list string) (score_thr : Qc) (with_segmentation : bool)
    : Py.exn + (gmap string (list Prediction) * Image) :=
  match image with
  | NdObject => inl (Py.External "inference failure")
  | NdPixels px =>
      let instances :=
        filter (λ p, (score_thr ≤ score p)%Qc) (detect (model demo) px category_names) in
      let instances :=
        match with_segmentation, sam_predictor demo with
        | true, Some sam => map (with_mask (sam_model sam) px) instances
        | _, _ => instances
        end in
      inr ({[ "instances" := instances ]}, render px category_names instances)
  end.

(** Number of predictions a call returned (none when it raised). *)
Definition num_predictions (r : Py.exn + (gmap string (list Prediction) * Image)) : nat :=
  match r with
  | inr (predictions, _) => length (default [] (predictions !! "instances"))
  | inl _ => 0
  end.
End Detector.

(** Collaborators whose detector wrapper is the one modelled above and
    whose cleaner is [clean]: configurations and models are names, loading
    the checkpoint succeeds when [ckpt_ok], the serialiser is [to_coco_json]. *)
Definition collaborators (sam2_available ckpt_ok : bool)
    (detect : string → Image → list string → list Prediction)
    (segment : string → Image → Qc * Qc * Qc * Qc → Z * Z * string)
    (render : Image → list string → list Prediction → Image) : Collaborators := {|
  Config := string;
  Model := string;
  SamModel := string;
  Instances := list Prediction;
  LazyConfig_load := λ path, inr path;
  LazyConfig_apply_overrides := λ cfg _, inr cfg;
  instantiate := λ cfg, inr cfg;
  model_to := λ m _, inr m;
  checkpointer_load := λ m _,
    if ckpt_ok then inr (m +:+ " (loaded)") else inl (Py.External "checkpoint not found");
  model_eval := λ m, m;
  SAM2_AVAILABLE := sam2_available;
  build_sam2 := λ cfg _, inr cfg;
  thing_classes := λ _, inr ["person"; "bicycle"; "car"];
  clean_words_or_phrase := clean;
  run_on_image := spec_run_on_image detect segment render;
  instances_to_coco_json := to_coco_json;
|}.

(** A small concrete world, used to run the script on examples: the
    detector reports three fixed detections for classes 0, 1 and 2. *)
Definition detections : list Prediction :=
  [ {| pred_box := (frac 10 1, frac 20 1, frac 110 1, frac 220 1); score := frac 9 10;
       pred_class := 0; pred_mask := None |};
    {| pred_box := (frac 50 1, frac 40 1, frac 400 1, frac 300 1); score := frac 8 10;
       pred_class := 1; pred_mask := None |};
    {| pred_box := (frac 5 1, frac 5 1, frac 30 1, frac 30 1); score := frac 3 10;
       pred_class := 2; pred_mask := None |} ].

Definition world (sam2_available ckpt_ok : bool) : Collaborators :=
  collaborators sam2_available ckpt_ok
    (λ _ _ _, detections) (λ _ _ _, (1%Z, 1%Z, "1")) (λ px _ _, px).

End Reference.

(** ** Notions used to state the properties *)

(** Prefixing the first piece. *)
Definition cons_head (cur : string) (l : list string) : list string :=
  match l with
  | [] => [cur]
  | h :: t => (cur +:+ h) :: t
  end.

(** The cleaned segments that are not empty. *)
Definition nonempty_cleaned `{Collaborators} (text : string) : list string :=
  filter (λ name, name ≠ "") (map clean_words_or_phrase (Py.split_from ", " 0 "" text)).

(** The cleaned segments that are empty. *)
Definition empty_cleaned `{Collaborators} (text : string) : list string :=
  filter (λ name, name = "") (map clean_words_or_phrase (Py.split_from ", " 0 "" text)).

(** The world used for the examples: SAM2 importable, checkpoint present. *)
Definition world : Collaborators := Reference.world true true.

Definition some_demo : OVDINODemo (@Model world) (@SamModel world) :=
  {| model := "ovdino"; sam_predictor := None; min_size_test := 800;
     max_size_test := frac 1333 1; img_format := "RGB";
     metadata_dataset := "coco_2017_val" |}.

Definition some_image : Image := [[[255; 0; 0]; [0; 255; 0]]]%Z.

(** Lines 104-111: the steps that produce the detection model in use. *)
Definition load_model `{Collaborators} (args : Args.t) : Py.exn + Model :=
  cfg ← setup args;
  model ← instantiate cfg;
  model ← model_to model cfg;
  model ← checkpointer_load model cfg;
  mret (model_eval model).



(** An inference call on the demo object [d]. *)
Definition inference_on `{Collaborators} (d : OVDINODemo Model SamModel) (ev : event) : Prop :=
  ∃ image names thr seg, ev = EvInference d image names thr seg.

(** The app that the default command line starts in the example world. *)
Definition default_demo : OVDINODemo (@Model world) (@SamModel world) :=
  {| model := "projects/dino/configs/dino_r50_4scale_12ep.py (loaded)";
     sam_predictor := None;
     min_size_test := 800;
     max_size_test := frac 1333 1;
     img_format := "RGB";
     metadata_dataset := "coco_2017_val" |}.

Definition default_app : @App world :=
  {| demo := default_demo; coco_categories := "person, bicycle, car" |}.

(** [i] is a valid Python index into [l]: between [-len(l)] and
    [len(l) - 1]. *)
Definition in_range {A} (l : list A) (i : Z) : Prop :=
  (- Z.of_nat (length l) ≤ i < Z.of_nat (length l))%Z.

(** A serialised record the loop of [gradio_predict] can process with the
    category list [names]. *)
Definition annotatable (names : list string) (r : gmap string JSON) : Prop :=
  ∃ i, r !! "category_id" = Some (JInt i) ∧ in_range names i ∧
       is_Some (r !! "image_id").



(** Every property of the form other than the values of its components
    is as it was constructed. *)
Definition layout_kept `{Collaborators} (app : App) (st : Form.state) : Prop :=
  ∀ c k, k ≠ "value" → st c !! k = initial_state app c !! k.

(** An example world whose detector reports one detection with the class
    index [-1]. *)
Definition last_class_world : Collaborators :=
  Reference.collaborators true true
    (λ _ _ _, [ {| Reference.pred_box := (frac 0 1, frac 0 1, frac 8 1, frac 8 1);
                   Reference.score := frac 9 10;
                   Reference.pred_class := -1;
                   Reference.pred_mask := None |} ])
    (λ _ _ _, (1%Z, 1%Z, "1")) (λ px _ _, px).

(** * Properties *)

(** ** Splitting and joining strings *)

Section Split.
Implicit Types (s p r cur sep : string).
Local Arguments String.append !_ _ / : simpl nomatch.

Lemma string_app_nil_r s : s +:+ "" = s.
Proof. induction s as [|c s IH]; simpl; congruence. Qed.

Lemma string_app_assoc s1 s2 s3 : (s1 +:+ s2) +:+ s3 = s1 +:+ s2 +:+ s3.
Proof. induction s1 as [|c s1 IH]; simpl; congruence. Qed.

Lemma string_length_app s1 s2 :
  String.length (s1 +:+ s2) = String.length s1 + String.length s2.
Proof. induction s1 as [|c s1 IH]; simpl; congruence. Qed.

Lemma startswith_app p r : Py.startswith p (p +:+ r) = true.
Proof. induction p as [|a p IH]; simpl; [done|]. by rewrite decide_True. Qed.

Lemma startswith_inv p s : Py.startswith p s = true → ∃ r, s = p +:+ r.
Proof.
  revert s; induction p as [|a p IH]; intros s; simpl; [by eauto|].
  destruct s as [|b s]; [done|].
  case_decide as Hab; [|done].
  intros [r ->]%IH. subst b. by exists r.
Qed.

Lemma startswith_false_app p s r :
  Py.startswith p (s +:+ r) = false → Py.startswith p s = false.
Proof.
  intros Hf. destruct (Py.startswith p s) eqn:Ht; [|done].
  apply startswith_inv in Ht as [x ->].
  by rewrite string_app_assoc, startswith_app in Hf.
Qed.

(** The pieces of [s] for a separator, from a fresh accumulator. *)
Local Abbreviation pieces sep s := (Py.split_from sep 0 "" s).

Lemma split_from_unfold sep cur c rest :
  Py.split_from sep 0 cur (String c rest) =
    if Py.startswith sep (String c rest)
    then cur :: Py.split_from sep (String.length sep - 1) "" rest
    else Py.split_from sep 0 (cur +:+ String c "") rest.
Proof. reflexivity. Qed.

Lemma split_from_skip sep w cur s :
  Py.split_from sep (String.length w) cur (w +:+ s) = Py.split_from sep 0 cur s.
Proof. induction w as [|c w IH]; simpl; [by destruct s|done]. Qed.

Lemma split_from_nonempty sep skip cur s : Py.split_from sep skip cur s ≠ [].
Proof.
  revert skip cur; induction s as [|c s IH]; intros skip cur; simpl; [done|].
  destruct skip; [|by apply IH].
  destruct (Py.startswith sep (String c s)); [done|by apply IH].
Qed.

Lemma split_from_acc sep cur s :
  Py.split_from sep 0 cur s = cons_head cur (pieces sep s).
Proof.
  revert cur; induction s as [|c s IH]; intros cur.
  - simpl. by rewrite string_app_nil_r.
  - rewrite !split_from_unfold.
    destruct (Py.startswith sep (String c s)); simpl.
    + by rewrite string_app_nil_r.
    + rewrite IH, (IH (String c "")).
      destruct (pieces sep s); simpl; by rewrite ?string_app_assoc.
Qed.

(** The three equations of the splitter. *)
Lemma split_nil sep : pieces sep "" = [""].
Proof. reflexivity. Qed.

Lemma split_match a w s :
  pieces (String a w) (String a w +:+ s) = "" :: pieces (String a w) s.
Proof.
  change (String a w +:+ s) with (String a (w +:+ s)).
  rewrite split_from_unfold.
  change (String a (w +:+ s)) with (String a w +:+ s).
  rewrite startswith_app.
  replace (String.length (String a w) - 1) with (String.length w) by (simpl; lia).
  by rewrite split_from_skip.
Qed.

Lemma split_nomatch sep c s :
  Py.startswith sep (String c s) = false →
  pieces sep (String c s) = cons_head (String c "") (pieces sep s).
Proof. intros Hf. by rewrite split_from_unfold, Hf, split_from_acc. Qed.

(** Induction along the scan: the end of the text, a separator at the
    front, or a character that joins the first piece of the rest. *)
Lemma split_ind a w (P : string → list string → Prop) :
  let sep := String a w in
  P "" [""] →
  (∀ r, P r (pieces sep r) → P (sep +:+ r) ("" :: pieces sep r)) →
  (∀ c s h t, Py.startswith sep (String c s) = false →
     pieces sep s = h :: t → P s (h :: t) → P (String c s) (String c h :: t)) →
  ∀ s, P s (pieces sep s).
Proof.
  intros sep Hnil Hmatch Hchar s.
  remember (String.length s) as n eqn:Hn. revert s Hn.
  induction n as [n IH] using lt_wf_ind; intros s ->.
  destruct s as [|c s]; [exact Hnil|].
  destruct (Py.startswith sep (String c s)) eqn:Hsw.
  - destruct (startswith_inv _ _ Hsw) as [r Hr]. rewrite Hr.
    unfold sep at 2 3. rewrite split_match. apply Hmatch.
    eapply IH; [|done]. rewrite Hr, string_length_app. simpl. lia.
  - rewrite split_nomatch by done.
    destruct (pieces sep s) as [|h t] eqn:Hs.
    { by apply split_from_nonempty in Hs. }
    simpl. apply Hchar; [done..|]. rewrite <-Hs.
    eapply IH; [|done]. simpl. lia.
Qed.

Lemma str_join_cons sep p l :
  l ≠ [] → Py.str_join sep (p :: l) = p +:+ sep +:+ Py.str_join sep l.
Proof. by destruct l. Qed.

Lemma str_join_head sep c h t :
  Py.str_join sep (String c h :: t) = String c (Py.str_join sep (h :: t)).
Proof. by destruct t. Qed.

(** Joining the pieces with the separator gives the text back. *)
Lemma join_split a w s : Py.str_join (String a w) (pieces (String a w) s) = s.
Proof.
  apply (split_ind a w (λ s l, Py.str_join (String a w) l = s)); clear s.
  - done.
  - intros r IH. rewrite str_join_cons by apply split_from_nonempty.
    by rewrite IH.
  - intros c s h t _ _ IH. by rewrite str_join_head, IH.
Qed.

Lemma split_head_prefix a w s h t :
  pieces (String a w) s = h :: t → ∃ r, s = h +:+ r.
Proof.
  intros Hs. pose proof (join_split a w s) as Hj. rewrite Hs in Hj.
  destruct t as [|q t]; simpl in Hj.
  - exists "". by rewrite string_app_nil_r.
  - by eexists.
Qed.

(** No piece contains the separator. *)
Lemma split_pieces_free a w s :
  Forall (λ p, Py.occurrences (String a w) p = 0) (pieces (String a w) s).
Proof.
  apply (split_ind a w (λ s l, Forall (λ p, Py.occurrences (String a w) p = 0) l));
    clear s.
  - by repeat constructor.
  - intros r IH. by constructor.
  - intros c s h t Hsw Hs IH. inversion_clear IH as [|?? Hh Ht].
    constructor; [|done].
    destruct (split_head_prefix _ _ _ _ _ Hs) as [r ->].
    change (String c (h +:+ r)) with (String c h +:+ r) in Hsw.
    apply startswith_false_app in Hsw.
    change (Py.occurrences (String a w) (String c h))
      with ((if Py.startswith (String a w) (String c h) then 1 else 0)
            + Py.occurrences (String a w) h).
    by rewrite Hsw, Hh.
Qed.

(** A text without the separator is a single piece. *)
Lemma split_free sep p : Py.occurrences sep p = 0 → pieces sep p = [p].
Proof.
  induction p as [|c p IH]; [done|].
  change (Py.occurrences sep (String c p))
    with ((if Py.startswith sep (String c p) then 1 else 0) + Py.occurrences sep p).
  destruct (Py.startswith sep (String c p)) eqn:Hsw; [done|].
  intros Hp. by rewrite split_nomatch, IH.
Qed.

(** For the separator [", "]: one piece more than there are occurrences. *)
Lemma split_comma_space_length s :
  length (pieces ", " s) = S (Py.occurrences ", " s).
Proof.
  apply (split_ind "," " " (λ s l, length l = S (Py.occurrences ", " s))); clear s.
  - done.
  - intros r IH. simpl. by rewrite IH.
  - intros c s h t Hsw _ IH.
    change (Py.occurrences ", " (String c s))
      with ((if Py.startswith ", " (String c s) then 1 else 0) + Py.occurrences ", " s).
    rewrite Hsw. exact IH.
Qed.

Lemma split_comma_space_scan p r :
  Py.occurrences ", " p = 0 → pieces ", " (p +:+ ", " +:+ r) = p :: pieces ", " r.
Proof.
  induction p as [|c p IH]; [intros _; apply (split_match "," " ")|].
  change (Py.occurrences ", " (String c p))
    with ((if Py.startswith ", " (String c p) then 1 else 0) + Py.occurrences ", " p).
  destruct (Py.startswith ", " (String c p)) eqn:Hsw; [done|].
  intros Hp. change (String c p +:+ ", " +:+ r) with (String c (p +:+ ", " +:+ r)).
  rewrite split_nomatch; [by rewrite IH|].
  revert Hsw. simpl. case_decide; [|done]. by destruct p.
Qed.

(** The pieces are the only way to cut the text at [", "] into parts
    that do not contain it. *)
Lemma split_comma_space_join l :
  l ≠ [] → Forall (λ p, Py.occurrences ", " p = 0) l →
  pieces ", " (Py.str_join ", " l) = l.
Proof.
  induction l as [|p l IH]; [done|]. intros _ Hl.
  inversion_clear Hl as [|?? Hp Hl'].
  destruct l as [|q l]; [by apply split_free|].
  rewrite str_join_cons, split_comma_space_scan by done.
  by rewrite IH.
Qed.
End Split.

(** ** The request handler *)

Section Request.
Context `{Collaborators}.
Implicit Types (text : string) (names : list string).

Lemma length_filter_split {A} (P : A → Prop) `{∀ x, Decision (P x)} (l : list A) :
  length l = length (filter P l) + length (filter (λ x, ¬ P x) l).
Proof.
  induction l as [|x l IH]; [done|].
  rewrite !filter_cons. destruct (decide (P x)).
  - rewrite decide_False by tauto. simpl. lia.
  - rewrite decide_True by done. simpl. lia.
Qed.

Lemma mapM_inr {A B} (f : A → Py.exn + B) l k :
  mapM f l = inr k → Forall2 (λ x y, f x = inr y) l k.
Proof.
  revert k; induction l as [|x l IH]; intros k; simpl.
  - intros [= <-]. constructor.
  - unfold mbind, exn_bind, mret, exn_ret.
    destruct (f x) as [e|y] eqn:Hx; [done|].
    destruct (mapM f l) as [e|k'] eqn:Hl; [done|].
    intros [= <-]. constructor; [done|]. by apply IH.
Qed.

Lemma Forall2_mapM_inr {A B} (f : A → Py.exn + B) l k :
  Forall2 (λ x y, f x = inr y) l k → mapM f l = inr k.
Proof.
  induction 1 as [|x y l k Hx _ IH]; [done|].
  change (mapM f (x :: l)) with (y ← f x; k ← mapM f l; mret (y :: k)).
  by rewrite Hx, IH.
Qed.

(** What one turn of the loop does to a record. *)
Lemma annotate_inr names (r r' : gmap string JSON) :
  annotate names r = inr r' ↔
  ∃ i name,
    r !! "category_id" = Some (JInt i) ∧
    Py.list_index names i = inr name ∧
    is_Some (r !! "image_id") ∧
    r' = delete "image_id" (<["category_name" := JStr name]> r).
Proof.
  unfold annotate, Py.dict_get, Py.dict_del, mbind, exn_bind. split.
  - destruct (r !! "category_id") as [[i| | | |]|] eqn:Hc; try done.
    destruct (Py.list_index names i) as [e|name] eqn:Hn; [done|].
    rewrite lookup_insert_ne by done.
    destruct (r !! "image_id") as [v|] eqn:Hi; [|done].
    intros [= <-]. by exists i, name.
  - intros (i & name & -> & -> & [v Hv] & ->).
    by rewrite lookup_insert_ne, Hv by done.
Qed.

(** The handler calls the detector once, on the cleaned segments of the
    text, and its outcome is that of the detector followed by the
    serialisation loop. *)
Lemma gradio_predict_unfold demo image text thr seg :
  gradio_predict demo image text thr seg =
    let names := map clean_words_or_phrase (Py.split_from ", " 0 "" text) in
    ([EvInference demo (np_array image) names thr seg],
     '(predictions, visualized_output) ←
        run_on_image demo (np_array image) names thr seg;
     instances ← Py.dict_get predictions "instances";
     json_results ← mapM (annotate names) (instances_to_coco_json instances 0);
     mret (reverse_channels visualized_output, json_results)).
Proof.
  unfold gradio_predict, call_run_on_image, normalize, lift, emit.
  unfold mbind, M_bind, exn_bind, mret, M_ret, exn_ret. simpl.
  destruct (run_on_image _ _ _ _ _) as [e|[predictions vis]]; [done|]. simpl.
  destruct (Py.dict_get predictions "instances") as [e|instances]; [done|]. simpl.
  by destruct (mapM _ _).
Qed.

(** A successful request, step by step. *)
Lemma gradio_predict_inr demo image text thr seg output records :
  outcome (gradio_predict demo image text thr seg) = inr (output, records) →
  ∃ segments predictions visualized_output instances,
    Py.str_split text ", " = inr segments ∧
    run_on_image demo (np_array image) (map clean_words_or_phrase segments) thr seg
      = inr (predictions, visualized_output) ∧
    predictions !! "instances" = Some instances ∧
    Forall2 (λ r r', annotate (map clean_words_or_phrase segments) r = inr r')
      (instances_to_coco_json instances 0) records ∧
    output = reverse_channels visualized_output.
Proof.
  rewrite gradio_predict_unfold. unfold outcome. simpl.
  unfold mbind, exn_bind, mret, exn_ret, Py.dict_get.
  destruct (run_on_image _ _ _ _ _) as [e|[predictions vis]] eqn:Hrun; [done|].
  destruct (predictions !! "instances") as [instances|] eqn:Hi; [|done].
  destruct (mapM _ _) as [e|recs] eqn:Hm; [done|].
  intros [= <- <-]. eexists _, predictions, vis, instances.
  split_and!; [done..| |done]. by apply mapM_inr.
Qed.

Lemma list_index_nonneg {A} (l : list A) (i : Z) (x : A) :
  Py.list_index l i = inr x → (0 ≤ i)%Z → l !! Z.to_nat i = Some x.
Proof.
  unfold Py.list_index. cbv zeta. intros Hx Hi.
  rewrite (decide_False (P := (i < 0)%Z)) in Hx by lia.
  case_decide; [|done]. by destruct (l !! Z.to_nat i) as [y|]; simplify_eq.
Qed.

(** C1 (amended): the normaliser yields one name per [", "]-delimited
    segment of the text, empty ones included.  Its length is the number
    of segments, one more than the occurrences of [", "], which is the
    number of non-empty cleaned segments plus the number of segments that
    are empty after cleaning; the i-th name is the cleaned i-th segment. *)
Theorem normalize_one_name_per_segment text :
  ∃ segments names,
    Py.str_split text ", " = inr segments ∧
    normalize text = inr names ∧
    length names = length segments ∧
    length segments = S (Py.occurrences ", " text) ∧
    length names = length (nonempty_cleaned text) + length (empty_cleaned text) ∧
    ∀ i segment,
      segments !! i = Some segment →
      names !! i = Some (clean_words_or_phrase segment).
Proof.
  eexists _, _. split; [reflexivity|]. split; [reflexivity|].
  split_and!.
  - apply length_map.
  - apply split_comma_space_length.
  - unfold nonempty_cleaned, empty_cleaned.
    rewrite (length_filter_split (λ name, name ≠ "")). f_equal. f_equal.
    apply list_filter_iff. intros name. split; [apply dec_stable|by auto].
  - intros i segment Hi. by rewrite list_lookup_fmap, Hi.
Qed.

(** C9: the splitter cuts the text at the two characters comma, space and
    nowhere else.  The segments joined by [", "] give the text back, no
    segment contains [", "], there is one segment more than occurrences
    of [", "], and no other cutting has these properties; a text without
    [", "] (whatever commas it holds) stays one phrase. *)
Theorem splitter_cuts_at_comma_space text :
  ∃ segments,
    Py.str_split text ", " = inr segments ∧
    normalize text = inr (map clean_words_or_phrase segments) ∧
    Py.str_join ", " segments = text ∧
    Forall (λ segment, Py.occurrences ", " segment = 0) segments ∧
    length segments = S (Py.occurrences ", " text) ∧
    (∀ l, l ≠ [] → Forall (λ segment, Py.occurrences ", " segment = 0) l →
          Py.str_join ", " l = text → l = segments) ∧
    (Py.occurrences ", " text = 0 →
       normalize text = inr [clean_words_or_phrase text]).
Proof.
  eexists. split; [reflexivity|]. split; [reflexivity|]. split_and!.
  - apply (join_split "," " ").
  - apply (split_pieces_free "," " ").
  - apply split_comma_space_length.
  - intros l Hne Hfree <-. symmetry. by apply split_comma_space_join.
  - intros Hfree. unfold normalize, Py.str_split.
    by rewrite split_free.
Qed.

(** C6 (amended): the handler does not validate the category text.  Every
    request reaches the detector exactly once, with the cleaned segments
    in order; that list holds an empty entry exactly when some segment is
    empty after cleaning.  A request fails only when the detector or the
    serialisation of its predictions raises, and then it ends with that
    exception and without a result. *)
Theorem gradio_predict_passes_every_segment demo image text thr seg :
  ∃ segments,
    Py.str_split text ", " = inr segments ∧
    trace (gradio_predict demo image text thr seg) =
      [EvInference demo (np_array image) (map clean_words_or_phrase segments) thr seg] ∧
    ("" ∈ map clean_words_or_phrase segments ↔
       ∃ segment, segment ∈ segments ∧ clean_words_or_phrase segment = "") ∧
    (∀ e,
       run_on_image demo (np_array image) (map clean_words_or_phrase segments) thr seg
         = inl e →
       outcome (gradio_predict demo image text thr seg) = inl e) ∧
    (∀ e,
       outcome (gradio_predict demo image text thr seg) = inl e →
       run_on_image demo (np_array image) (map clean_words_or_phrase segments) thr seg
         = inl e ∨
       ∃ predictions visualized_output,
         run_on_image demo (np_array image) (map clean_words_or_phrase segments) thr seg
           = inr (predictions, visualized_output) ∧
         (Py.dict_get predictions "instances" = inl e ∨
          ∃ instances,
            predictions !! "instances" = Some instances ∧
            mapM (annotate (map clean_words_or_phrase segments))
              (instances_to_coco_json instances 0) = inl e)).
Proof.
  eexists. split; [reflexivity|]. rewrite gradio_predict_unfold. split_and!.
  - done.
  - rewrite list_elem_of_fmap. split.
    + intros (segment & Hempty & Hin). by exists segment.
    + intros (segment & Hin & Hempty). by exists segment.
  - intros e He. unfold outcome. simpl. by rewrite He.
  - intros e. unfold outcome. simpl.
    destruct (run_on_image _ _ _ _ _) as [e'|[predictions vis]]; simpl.
    { intros [= ->]. by left. }
    intros He. right. exists predictions, vis. split; [done|].
    unfold Py.dict_get in *.
    destruct (predictions !! "instances") as [instances|]; simpl in He.
    + right. exists instances. split; [done|].
      destruct (mapM _ _) as [e'|records]; simpl in He; by simplify_eq.
    + left. by injection He as ->.
Qed.

(** C4: no record returned by a request has an [image_id]; each is the
    record produced by the serialiser with [category_name] added and
    [image_id] deleted, nothing else changed. *)
Theorem records_carry_no_image_id demo image text thr seg output records :
  outcome (gradio_predict demo image text thr seg) = inr (output, records) →
  Forall (λ r : gmap string JSON, r !! "image_id" = None) records ∧
  ∃ instances,
    Forall2 (λ r r' : gmap string JSON,
               ∃ name, r' = delete "image_id" (<["category_name" := JStr name]> r))
      (instances_to_coco_json instances 0) records.
Proof.
  intros (segments & predictions & vis & instances & _ & _ & _ & Hall & _)
    %gradio_predict_inr.
  split.
  - induction Hall as [|r r' l k [i [name (_ & _ & _ & ->)]]%annotate_inr _ IH];
      constructor; [|done].
    apply lookup_delete_eq.
  - exists instances. eapply Forall2_impl; [exact Hall|].
    intros r r' (i & name & _ & _ & _ & ->)%annotate_inr. by exists name.
Qed.

(** C5: in every record returned by a request, [category_name] is the
    entry of that request's cleaned category list at the record's
    [category_id] (Python indexing; for an index that is not negative,
    the entry at that position). *)
Theorem category_name_is_indexed_name demo image text thr seg output records :
  outcome (gradio_predict demo image text thr seg) = inr (output, records) →
  ∃ names,
    normalize text = inr names ∧
    trace (gradio_predict demo image text thr seg) =
      [EvInference demo (np_array image) names thr seg] ∧
    Forall (λ r : gmap string JSON,
              ∃ i name,
                r !! "category_id" = Some (JInt i) ∧
                Py.list_index names i = inr name ∧
                r !! "category_name" = Some (JStr name) ∧
                ((0 ≤ i)%Z → names !! Z.to_nat i = Some name))
      records.
Proof.
  intros (segments & predictions & vis & instances & [= <-] & _ & _ & Hall & _)
    %gradio_predict_inr.
  eexists. split; [reflexivity|]. split; [by rewrite gradio_predict_unfold|].
  induction Hall as [|r r' l k (i & name & Hc & Hn & _ & ->)%annotate_inr _ IH];
    constructor; [|done].
  exists i, name. split_and!.
  - by rewrite lookup_delete_ne, lookup_insert_ne.
  - done.
  - by rewrite lookup_delete_ne, lookup_insert_eq.
  - by apply list_index_nonneg.
Qed.
End Request.

(** *** The handler on examples *)

(** The splitter on the cases of the Python documentation and on commas
    without a following space. *)
Example str_split_examples :
  Py.str_split "person, bus, bicycle" ", " = inr ["person"; "bus"; "bicycle"] ∧
  Py.str_split "person,bus" ", " = inr ["person,bus"] ∧
  Py.str_split "a,b,, c, " ", " = inr ["a,b,"; "c"; ""] ∧
  Py.str_split "" ", " = inr [""] ∧
  Py.str_split "1<>2<>3" "<>" = inr ["1"; "2"; "3"] ∧
  Py.str_split "aaa" "aa" = inr [""; "a"] ∧
  Py.str_split "abc" "" = inl Py.ValueError.
Proof. by repeat split. Qed.

(** Python list indexing. *)
Example list_index_examples :
  Py.list_index ["person"; "bus"] 1 = inr "bus" ∧
  Py.list_index ["person"; "bus"] (-1) = inr "bus" ∧
  Py.list_index ["person"; "bus"] 2 = inl Py.IndexError ∧
  Py.list_index ["person"; "bus"] (-3) = inl Py.IndexError.
Proof. by repeat split. Qed.

(** C1, counterexample: for the text ["person, , bus"] the normaliser returns
    three names, the middle one empty, while only two cleaned segments are
    non-empty. *)
Lemma normalize_counts_empty_segment :
  ∃ names,
    @normalize world "person, , bus" = inr names ∧
    names = ["person"; ""; "bus"] ∧
    @nonempty_cleaned world "person, , bus" = ["person"; "bus"] ∧
    length names ≠ length (@nonempty_cleaned world "person, , bus").
Proof.
  eexists. split; [reflexivity|].
  split; [reflexivity|]. split; [reflexivity|].
  simpl. discriminate.
Qed.

(** C6, counterexample: the request with the text ["person, , bus"], whose
    middle phrase is empty after cleaning, is passed to the detector with the
    empty entry in its category list, and it returns a result. *)
Lemma malformed_text_reaches_detector :
  trace (@gradio_predict world some_demo (Some some_image) "person, , bus" half false)
    = [EvInference some_demo (NdPixels some_image) ["person"; ""; "bus"] half false] ∧
  ∃ output records,
    outcome (@gradio_predict world some_demo (Some some_image) "person, , bus" half false)
      = inr (output, records) ∧
    length records = 2.
Proof.
  split; [reflexivity|].
  eexists _, _. split; [reflexivity|]. reflexivity.
Qed.

(** The request of the spec's example: three categories, threshold [0.5]. *)
Lemma records_carry_no_image_id_example :
  ∃ output records,
    outcome (@gradio_predict world some_demo (Some some_image)
               "person, bus, bicycle" half false) = inr (output, records) ∧
    length records = 2 ∧
    Forall (λ r : gmap string JSON, r !! "image_id" = None) records ∧
    ∃ instances,
      Forall2 (λ r r' : gmap string JSON,
                 ∃ name, r' = delete "image_id" (<["category_name" := JStr name]> r))
        (@instances_to_coco_json world instances 0) records.
Proof.
  eexists _, _. split; [reflexivity|]. split; [reflexivity|].
  eapply (@records_carry_no_image_id world some_demo (Some some_image)
            "person, bus, bicycle" half false).
  reflexivity.
Defined.

(** The same request: both records name the category at their index. *)
Lemma category_name_is_indexed_name_example :
  ∃ output records,
    outcome (@gradio_predict world some_demo (Some some_image)
               "person, bus, bicycle" half false) = inr (output, records) ∧
    length records = 2 ∧
    ∃ names,
      @normalize world "person, bus, bicycle" = inr names ∧
      trace (@gradio_predict world some_demo (Some some_image)
               "person, bus, bicycle" half false) =
        [EvInference some_demo (np_array (Some some_image)) names half false] ∧
      Forall (λ r : gmap string JSON,
                ∃ i name,
                  r !! "category_id" = Some (JInt i) ∧
                  Py.list_index names i = inr name ∧
                  r !! "category_name" = Some (JStr name) ∧
                  ((0 ≤ i)%Z → names !! Z.to_nat i = Some name))
        records.
Proof.
  eexists _, _. split; [reflexivity|]. split; [reflexivity|].
  eapply (@category_name_is_indexed_name world some_demo (Some some_image)
            "person, bus, bicycle" half false).
  reflexivity.
Defined.

(** ** Start-up and the form *)

Section Startup.
Context `{Collaborators}.

(** Start-up either stops with an exception before anything is served, or
    launches once with a demo object that holds the loaded model. *)
Lemma main_outcome args :
  match load_model args with
  | inl e => main args = ([], inl e)
  | inr m =>
      (∃ e, main args = ([], inl e)) ∨
      (∃ app, main args = ([EvLaunch], inr app) ∧ model (demo app) = m)
  end.
Proof.
  unfold load_model, main, lift, emit.
  unfold mbind, M_bind, exn_bind, mret, M_ret, exn_ret.
  destruct (setup args) as [e|cfg]; [done|].
  destruct (instantiate cfg) as [e|m0]; [done|].
  destruct (model_to m0 cfg) as [e|m1]; [done|].
  destruct (checkpointer_load m1 cfg) as [e|m2]; [done|]. simpl.
  destruct (Args.sam_config_file args) as [sam_config|], SAM2_AVAILABLE; simpl;
    try (destruct (build_sam2 _ _) as [e|sam]; simpl; [by eauto|]);
    destruct (thing_classes _) as [e|classes]; simpl; eauto.
Qed.



(** Serving one action never stops the server, and the only outside
    calls it makes are inference calls on the demo object of the app. *)
Lemma handle_outcome app st a :
  ∃ tr st', handle app st a = (tr, inr st') ∧ Forall (inference_on (demo app)) tr.
Proof.
  destruct a as [c v|c]; simpl.
  - eexists _, _. split; [reflexivity|constructor].
  - destruct c; try (eexists _, _; split; [reflexivity|constructor]).
    rewrite gradio_predict_unfold. simpl.
    match goal with
    | |- context [match ?r with inl _ => _ | inr _ => _ end] =>
        destruct r as [e|[output records]]
    end.
    all: eexists _, _; split; [reflexivity|].
    all: repeat constructor; by eexists _, _, _, _.
Qed.

Lemma serve_outcome app st actions :
  ∃ tr st', serve app st actions = (tr, inr st') ∧ Forall (inference_on (demo app)) tr.
Proof.
  revert st; induction actions as [|a actions IH]; intros st; simpl.
  - eexists _, _. split; [reflexivity|constructor].
  - destruct (handle_outcome app st a) as (tr & st' & -> & Htr).
    destruct (IH st') as (tr' & st'' & Hs & Htr').
    unfold mbind, M_bind. rewrite Hs.
    eexists _, _. split; [reflexivity|]. by apply Forall_app.
Qed.
End Startup.

Section Serving.
Context `{Collaborators}.

(** C8: the model is loaded before anything is served.  When a step of
    the model loading raises, the process ends with that exception: it
    launches nothing and serves no request.  Otherwise the only requests
    served come after the launch and run on the loaded model. *)
Theorem model_loaded_before_serving args actions :
  match load_model args with
  | inl e => process args actions = ([], inl e)
  | inr m =>
      trace (process args actions) = [] ∨
      ∃ served,
        trace (process args actions) = EvLaunch :: served ∧
        Forall (λ ev, ∃ d, inference_on d ev ∧ model d = m) served
  end.
Proof.
  pose proof (main_outcome args) as Hmain. unfold process.
  destruct (load_model args) as [e|m].
  - by rewrite Hmain.
  - destruct Hmain as [[e ->]|(app & -> & Hm)]; [by left|right].
    destruct (serve_outcome app (initial_state app) actions) as (tr & st & Hs & Htr).
    unfold mbind, M_bind. rewrite Hs. exists tr. split; [done|].
    eapply Forall_impl; [exact Htr|]. intros ev Hev. by exists (demo app).
Qed.

Lemma clear_state app st :
  handle app st (Click Form.clear) =
    ([], inr (Form.set_outputs Form.clear_outputs
                (Form.clear_fn SAM2_AVAILABLE (coco_categories app)) st)).
Proof. reflexivity. Qed.

(** What pressing [clear] does to each field, from any state: the three
    inputs that receive plain values are reset; the results and the
    checkbox, which receive their own component objects, keep their
    values; no outside call is made. *)
Lemma clear_fields app st :
  ∃ st',
    handle app st (Click Form.clear) = ([], inr st') ∧
    Form.value st' Form.image = Form.VNone ∧
    Form.value st' Form.input_text = Form.VStr (coco_categories app) ∧
    Form.value st' Form.score_thr = Form.VNum half ∧
    Form.value st' Form.json_results = Form.value st Form.json_results ∧
    Form.value st' Form.with_segmentation = Form.value st Form.with_segmentation.
Proof.
  eexists. split; [apply clear_state|].
  unfold Form.value, Form.set_outputs, Form.clear_outputs, Form.clear_fn, Form.update.
  simpl. split_and!.
  - by rewrite lookup_insert_eq.
  - by rewrite lookup_insert_eq.
  - by rewrite lookup_insert_eq.
  - by rewrite lookup_union_r.
  - by rewrite lookup_union_r.
Qed.

(** The values the form starts with. *)
Lemma initial_values app :
  Form.value (initial_state app) Form.image = Form.VNone ∧
  Form.value (initial_state app) Form.input_text = Form.VStr (coco_categories app) ∧
  Form.value (initial_state app) Form.score_thr = Form.VNum half ∧
  Form.value (initial_state app) Form.json_results = Form.VNone ∧
  Form.value (initial_state app) Form.with_segmentation = Form.VBool false.
Proof.
  unfold Form.value, initial_state, Form.initial_props, Form.default_props. simpl.
  split_and!; reflexivity.
Qed.

(** C10: the threshold of the form does not depend on the
    [--confidence-threshold] flag.  Changing the flag changes nothing the
    process does; the slider starts at [0.5], and [clear] sets it to
    [0.5] from any state. *)
Theorem score_threshold_ignores_flag args q :
  (∀ actions,
     process (Args.with_confidence_threshold q args) actions = process args actions) ∧
  (∀ app, Form.value (initial_state app) Form.score_thr = Form.VNum half) ∧
  (∀ app st, ∃ st',
     handle app st (Click Form.clear) = ([], inr st') ∧
     Form.value st' Form.score_thr = Form.VNum half).
Proof.
  split_and!.
  - done.
  - intros app. by destruct (initial_values app) as (_ & _ & ? & _).
  - intros app st. destruct (clear_fields app st) as (st' & ? & _ & _ & ? & _).
    by exists st'.
Qed.

Lemma main_coco_categories args tr app :
  main args = (tr, inr app) →
  ∃ classes,
    thing_classes (Args.metadata_dataset args) = inr classes ∧
    coco_categories app = Py.str_join ", " classes.
Proof.
  unfold main, lift, emit.
  unfold mbind, M_bind, exn_bind, mret, M_ret, exn_ret.
  destruct (setup args) as [e|cfg]; [done|].
  destruct (instantiate cfg) as [e|m0]; [done|].
  destruct (model_to m0 cfg) as [e|m1]; [done|].
  destruct (checkpointer_load m1 cfg) as [e|m2]; [done|]. simpl.
  destruct (Args.sam_config_file args) as [sam_config|], SAM2_AVAILABLE; simpl;
    try (destruct (build_sam2 _ _) as [e|sam]; simpl; [done|]);
    destruct (thing_classes _) as [e|classes]; simpl;
    intros [= <- <-]; by exists classes.
Qed.

(** The text box starts with the class names of the metadata set, and the
    normaliser gives these names back, cleaned, provided there is at least
    one and none contains [", "]. *)
Theorem default_text_gives_back_classes args tr app classes :
  main args = (tr, inr app) →
  thing_classes (Args.metadata_dataset args) = inr classes →
  classes ≠ [] →
  Forall (λ name, Py.occurrences ", " name = 0) classes →
  Form.value (initial_state app) Form.input_text = Form.VStr (Py.str_join ", " classes) ∧
  normalize (as_text (Form.value (initial_state app) Form.input_text))
    = inr (map clean_words_or_phrase classes).
Proof.
  intros (classes' & Hc & Hj)%main_coco_categories Hclasses Hne Hfree.
  rewrite Hc in Hclasses. injection Hclasses as ->.
  destruct (initial_values app) as (_ & -> & _). rewrite Hj. split; [done|].
  unfold normalize, Py.str_split. simpl.
  by rewrite split_comma_space_join.
Qed.



End Serving.

(** *** The form on examples *)

(** C2, on the default command line with SAM2 importable: no SAM2
    configuration is given, so the demo object holds no segmentation
    predictor; yet the checkbox is shown, the user can tick it, and the
    request reaches the pipeline with segmentation enabled. *)
Lemma segmentation_toggle_shown_without_predictor :
  @main world Args.defaults = ([EvLaunch], inr default_app) ∧
  sam_predictor (demo default_app) = None ∧
  Form.visible (@initial_state world default_app) Form.with_segmentation = true ∧
  trace (@process world Args.defaults
           [Edit Form.image (Form.VImage some_image);
            Edit Form.with_segmentation (Form.VBool true);
            Click Form.submit])
    = [EvLaunch;
       EvInference (demo default_app) (NdPixels some_image)
         ["person"; "bicycle"; "car"] half true].
Proof. split_and!; reflexivity. Qed.

(** C3, after a request with the checkbox ticked: pressing [clear] empties
    the image and restores the text and the threshold, but the results
    shown and the checkbox stay as they were. *)
Lemma clear_leaves_results_and_toggle :
  ∃ before after records,
    outcome (@process world Args.defaults
               [Edit Form.image (Form.VImage some_image);
                Edit Form.with_segmentation (Form.VBool true);
                Edit Form.score_thr (Form.VNum (frac 3 10));
                Click Form.submit]) = inr before ∧
    @handle world default_app before (Click Form.clear) = ([], inr after) ∧
    Form.value before Form.json_results = Form.VJson records ∧
    length records = 3 ∧
    Form.value after Form.image = Form.VNone ∧
    Form.value after Form.input_text = Form.VStr "person, bicycle, car" ∧
    Form.value after Form.score_thr = Form.VNum half ∧
    Form.value after Form.json_results = Form.VJson records ∧
    Form.value after Form.with_segmentation = Form.VBool true.
Proof.
  eexists _, _, _. split; [reflexivity|].
  split; [reflexivity|]. split; [reflexivity|].
  split_and!; reflexivity.
Qed.

(** ** The detector wrapper (modelled from the spec) *)

Section Threshold.
Variable detect : string → Image → list string → list Reference.Prediction.
Variable segment : string → Image → Qc * Qc * Qc * Qc → Z * Z * string.
Variable render : Image → list string → list Reference.Prediction → Image.
Variables sam2_available ckpt_ok : bool.

Let spec_world : Collaborators :=
  Reference.collaborators sam2_available ckpt_ok detect segment render.

Lemma length_filter_mono {A} (P Q : A → Prop)
    `{∀ x, Decision (P x)} `{∀ x, Decision (Q x)} (l : list A) :
  (∀ x, P x → Q x) → (length (filter P l) ≤ length (filter Q l))%nat.
Proof.
  intros HPQ. induction l as [|x l IH]; [done|].
  rewrite !filter_cons. destruct (decide (P x)) as [HP|HP].
  - rewrite decide_True by auto. simpl. lia.
  - destruct (decide (Q x)); simpl; lia.
Qed.

Lemma length_to_coco_json instances img_id :
  length (Reference.to_coco_json instances img_id) = length instances.
Proof. apply length_map. Qed.

(** A successful request returns one record per prediction of the
    pipeline. *)
Lemma spec_world_records demo image text thr seg output records :
  outcome (@gradio_predict spec_world demo image text thr seg) = inr (output, records) →
  ∃ segments,
    Py.str_split text ", " = inr segments ∧
    length records =
      Reference.num_predictions
        (Reference.spec_run_on_image detect segment render demo (np_array image)
           (map Reference.clean segments) thr seg).
Proof.
  intros (segments & predictions & vis & instances & Hs & Hrun & Hi & Hall & _)
    %gradio_predict_inr.
  exists segments. split; [done|].
  change (@run_on_image spec_world) with
    (Reference.spec_run_on_image detect segment render) in Hrun.
  change (@clean_words_or_phrase spec_world) with Reference.clean in Hrun.
  rewrite Hrun. simpl. change (@Instances spec_world) with (list Reference.Prediction) in *.
  rewrite Hi. simpl.
  apply Forall2_length in Hall. rewrite <-Hall. apply length_to_coco_json.
Qed.

(** C7: for a fixed image and category list, a lower threshold never
    returns fewer predictions; and two successful requests that differ
    only in the threshold return record lists ordered the same way. *)
Theorem lower_threshold_keeps_more (demo : OVDINODemo string string) image names
    (t1 t2 : Qc) seg :
  (t1 ≤ t2)%Qc →
  (Reference.num_predictions
     (Reference.spec_run_on_image detect segment render demo image names t2 seg)
   ≤ Reference.num_predictions
       (Reference.spec_run_on_image detect segment render demo image names t1 seg))%nat ∧
  ∀ picture text output1 records1 output2 records2,
    outcome (@gradio_predict spec_world demo picture text t1 seg)
      = inr (output1, records1) →
    outcome (@gradio_predict spec_world demo picture text t2 seg)
      = inr (output2, records2) →
    (length records2 ≤ length records1)%nat.
Proof.
  intros Ht.
  assert (∀ image names,
    (Reference.num_predictions
       (Reference.spec_run_on_image detect segment render demo image names t2 seg)
     ≤ Reference.num_predictions
         (Reference.spec_run_on_image detect segment render demo image names t1 seg))%nat)
    as Hmono.
  { clear image names. intros image names. unfold Reference.spec_run_on_image.
    destruct image as [px|]; [|done]. simpl.
    rewrite !lookup_singleton_eq. simpl.
    destruct seg, (sam_predictor demo); rewrite ?length_map;
      apply length_filter_mono; intros p Hp; by etrans. }
  split; [apply Hmono|].
  intros picture text output1 records1 output2 records2
    (segments1 & [= <-] & ->)%spec_world_records
    (segments2 & [= <-] & ->)%spec_world_records.
  apply Hmono.
Qed.
End Threshold.

(** Thresholds [0.3] and [0.5] on the three example detections: three
    predictions against two. *)
Lemma lower_threshold_keeps_more_example :
  (frac 3 10 ≤ half)%Qc ∧
  (Reference.num_predictions
     (Reference.spec_run_on_image (λ _ _ _, Reference.detections)
        (λ _ _ _, (1%Z, 1%Z, "1")) (λ px _ _, px)
        some_demo (NdPixels some_image) ["person"; "bus"; "bicycle"] half false) = 2 ∧
   Reference.num_predictions
     (Reference.spec_run_on_image (λ _ _ _, Reference.detections)
        (λ _ _ _, (1%Z, 1%Z, "1")) (λ px _ _, px)
        some_demo (NdPixels some_image) ["person"; "bus"; "bicycle"] (frac 3 10) false) = 3) ∧
  (Reference.num_predictions
     (Reference.spec_run_on_image (λ _ _ _, Reference.detections)
        (λ _ _ _, (1%Z, 1%Z, "1")) (λ px _ _, px)
        some_demo (NdPixels some_image) ["person"; "bus"; "bicycle"] half false)
   ≤ Reference.num_predictions
       (Reference.spec_run_on_image (λ _ _ _, Reference.detections)
          (λ _ _ _, (1%Z, 1%Z, "1")) (λ px _ _, px)
          some_demo (NdPixels some_image) ["person"; "bus"; "bicycle"] (frac 3 10) false))%nat.
Proof.
  assert (frac 3 10 ≤ half)%Qc as Ht by (by vm_compute).
  split; [exact Ht|]. split; [by split|].
  exact (proj1 (lower_threshold_keeps_more (λ _ _ _, Reference.detections)
                  (λ _ _ _, (1%Z, 1%Z, "1")) (λ px _ _, px) true true
                  some_demo (NdPixels some_image) ["person"; "bus"; "bicycle"]
                  (frac 3 10) half false Ht)).
Defined.


(** The default text of the example world. *)
Lemma default_text_gives_back_classes_example :
  Form.value (@initial_state world default_app) Form.input_text
    = Form.VStr (Py.str_join ", " ["person"; "bicycle"; "car"]) ∧
  @normalize world (as_text (Form.value (@initial_state world default_app) Form.input_text))
    = inr (map (@clean_words_or_phrase world) ["person"; "bicycle"; "car"]).
Proof.
  apply (@default_text_gives_back_classes world Args.defaults [EvLaunch] default_app
           ["person"; "bicycle"; "car"]).
  - reflexivity.
  - reflexivity.
  - done.
  - repeat constructor.
Defined.

(** ** Further properties of the request handler *)

Section Serialisation.
Context `{Collaborators}.
Implicit Types (names : list string) (r : gmap string JSON).

Lemma list_index_inr {A} (l : list A) (i : Z) (x : A) :
  Py.list_index l i = inr x ↔
  in_range l i ∧ l !! Z.to_nat (i `mod` Z.of_nat (length l)) = Some x.
Proof.
  unfold Py.list_index, in_range. cbv zeta.
  destruct (decide (i < 0)%Z) as [Hneg|Hpos].
  - case_decide as Hr.
    + replace (i `mod` Z.of_nat (length l))%Z with (i + Z.of_nat (length l))%Z.
      2:{ rewrite <-(Z_mod_plus_full i 1). rewrite Z.mul_1_l.
          symmetry. apply Z.mod_small. lia. }
      destruct (l !! Z.to_nat (i + Z.of_nat (length l))) as [y|] eqn:Hy.
      * split; [intros [= ->]; split; [lia|done]|by intros [_ [= ->]]].
      * split; [done|by intros [_ ?]].
    + split; [done|]. intros [? _]. lia.
  - case_decide as Hr.
    + rewrite Z.mod_small by lia.
      destruct (l !! Z.to_nat i) as [y|] eqn:Hy.
      * split; [intros [= ->]; split; [lia|done]|by intros [_ [= ->]]].
      * split; [done|by intros [_ ?]].
    + split; [done|]. intros [? _]. lia.
Qed.

Lemma list_index_inl {A} (l : list A) (i : Z) (e : Py.exn) :
  Py.list_index l i = inl e ↔ ¬ in_range l i ∧ e = Py.IndexError.
Proof.
  split.
  - intros He. destruct (decide (in_range l i)) as [Hr|Hr].
    + exfalso. unfold in_range in Hr.
      assert (is_Some (l !! Z.to_nat (i `mod` Z.of_nat (length l)))) as [x Hx].
      { apply lookup_lt_is_Some.
        pose proof (Z.mod_pos_bound i (Z.of_nat (length l))). lia. }
      assert (Py.list_index l i = inr x) as Hi by (by apply list_index_inr).
      congruence.
    + split; [done|]. revert He. unfold Py.list_index, in_range in *. cbv zeta.
      case_decide; [|congruence].
      destruct (l !! _); [done|congruence].
  - intros [Hr ->]. destruct (Py.list_index l i) as [e|x] eqn:Hi.
    + revert Hi. unfold Py.list_index. cbv zeta.
      case_decide; [|done]. by destruct (l !! _).
    + by apply list_index_inr in Hi as [? _].
Qed.

#[global] Instance in_range_dec {A} (l : list A) (i : Z) : Decision (in_range l i).
Proof. unfold in_range. apply _. Defined.

(** X3: the loop body raises exactly in four cases, each with its own
    exception: no [category_id] key, a [category_id] that is not an
    integer, an index outside the category list, no [image_id] key. *)
Theorem annotate_raises names r e :
  annotate names r = inl e ↔
  (r !! "category_id" = None ∧ e = Py.KeyError "category_id") ∨
  (∃ v, r !! "category_id" = Some v ∧ (∀ i, v ≠ JInt i) ∧ e = Py.TypeError) ∨
  (∃ i, r !! "category_id" = Some (JInt i) ∧ ¬ in_range names i ∧
        e = Py.IndexError) ∨
  (∃ i, r !! "category_id" = Some (JInt i) ∧ in_range names i ∧
        r !! "image_id" = None ∧ e = Py.KeyError "image_id").
Proof.
  unfold annotate, Py.dict_get, Py.dict_del, mbind, exn_bind.
  destruct (r !! "category_id") as [v|] eqn:Hc.
  2:{ split; [intros [= <-]; by left|]. intros [[_ ->]|[(v & ? & _)|[(i & ? & _)|(i & ? & _)]]];
      done. }
  destruct v as [i| | | |].
  - destruct (Py.list_index names i) as [e'|name] eqn:Hi.
    + apply list_index_inl in Hi as [Hr ->]. split.
      * intros [= <-]. right. right. left. by exists i.
      * intros [[? _]|[(v & [= <-] & Hv & _)|[(j & [= <-] & _ & ->)|(j & [= <-] & ? & _)]]];
          try done. by destruct (Hv i).
    + apply list_index_inr in Hi as [Hr _].
      rewrite lookup_insert_ne by done.
      destruct (r !! "image_id") as [w|] eqn:Himg.
      * split; [done|].
        intros [[? _]|[(v & [= <-] & Hv & _)|[(j & [= <-] & ? & _)|(j & [= <-] & _ & ? & _)]]];
          try done. by destruct (Hv i).
      * split.
        -- intros [= <-]. right. right. right. by exists i.
        -- intros [[? _]|[(v & [= <-] & Hv & _)|[(j & [= <-] & ? & _)|(j & [= <-] & _ & _ & ->)]]];
             try done. by destruct (Hv i).
  - split; [intros [= <-]; right; left; by eexists|].
    by intros [[? _]|[(w & _ & _ & ->)|[(j & ? & _)|(j & ? & _)]]].
  - split; [intros [= <-]; right; left; by eexists|].
    by intros [[? _]|[(w & _ & _ & ->)|[(j & ? & _)|(j & ? & _)]]].
  - split; [intros [= <-]; right; left; by eexists|].
    by intros [[? _]|[(w & _ & _ & ->)|[(j & ? & _)|(j & ? & _)]]].
  - split; [intros [= <-]; right; left; by eexists|].
    by intros [[? _]|[(w & _ & _ & ->)|[(j & ? & _)|(j & ? & _)]]].
Qed.

Lemma annotatable_inr names r :
  annotatable names r → ∃ r', annotate names r = inr r'.
Proof.
  intros (i & Hc & Hr & Himg).
  assert (is_Some (names !! Z.to_nat (i `mod` Z.of_nat (length names)))) as [name Hn].
  { apply lookup_lt_is_Some. unfold in_range in Hr.
    pose proof (Z.mod_pos_bound i (Z.of_nat (length names))). lia. }
  eexists. apply annotate_inr. exists i, name. split_and!; [done| |done..].
  by apply list_index_inr.
Qed.

Lemma annotate_inr_annotatable names r r' :
  annotate names r = inr r' → annotatable names r.
Proof.
  intros (i & name & Hc & Hn & Himg & _)%annotate_inr.
  exists i. split_and!; [done| |done]. by apply list_index_inr in Hn as [? _].
Qed.

Lemma mapM_annotatable names (l : list (gmap string JSON)) :
  Forall (annotatable names) l → ∃ k, mapM (annotate names) l = inr k.
Proof.
  induction 1 as [|r l [r' Hr]%annotatable_inr _ [k Hk]]; [by eexists|].
  exists (r' :: k).
  change (mapM (annotate names) (r :: l))
    with (y ← annotate names r; k ← mapM (annotate names) l; mret (y :: k)).
  by rewrite Hr, Hk.
Qed.

(** X4: a request returns a result exactly when the detector returns, its
    predictions hold an ["instances"] entry, and every serialised record
    has an integer [category_id] that is a valid index into the category
    list and an [image_id] key. *)
Theorem request_succeeds_iff demo image text thr seg :
  (∃ result, outcome (gradio_predict demo image text thr seg) = inr result) ↔
  ∃ segments predictions visualized_output instances,
    Py.str_split text ", " = inr segments ∧
    run_on_image demo (np_array image) (map clean_words_or_phrase segments) thr seg
      = inr (predictions, visualized_output) ∧
    predictions !! "instances" = Some instances ∧
    Forall (annotatable (map clean_words_or_phrase segments))
      (instances_to_coco_json instances 0).
Proof.
  split.
  - intros [[output records] Hok].
    apply gradio_predict_inr in Hok
      as (segments & predictions & vis & instances & Hs & Hrun & Hi & Hall & _).
    exists segments, predictions, vis, instances. split_and!; [done..|].
    clear Hrun. induction Hall as [|r r' l k Hr _ IH]; constructor; [|done].
    by eapply annotate_inr_annotatable.
  - intros (segments & predictions & vis & instances & [= <-] & Hrun & Hi & Hall).
    destruct (mapM_annotatable _ _ Hall) as [records Hrecords].
    exists (reverse_channels vis, records).
    rewrite gradio_predict_unfold. unfold outcome. simpl.
    rewrite Hrun. simpl. unfold Py.dict_get. rewrite Hi. simpl.
    by rewrite Hrecords.
Qed.

Lemma annotate_index_error names r i :
  r !! "category_id" = Some (JInt i) → ¬ in_range names i →
  annotate names r = inl Py.IndexError.
Proof.
  intros Hc Hr. unfold annotate, Py.dict_get, mbind, exn_bind. rewrite Hc.
  by assert (Py.list_index names i = inl Py.IndexError) as ->
    by (by apply list_index_inl).
Qed.

Lemma mapM_index_error names (l : list (gmap string JSON)) :
  Forall (λ r, ∃ i, r !! "category_id" = Some (JInt i) ∧ is_Some (r !! "image_id")) l →
  Exists (λ r, ∃ i, r !! "category_id" = Some (JInt i) ∧ ¬ in_range names i) l →
  mapM (annotate names) l = inl Py.IndexError.
Proof.
  induction 1 as [|r l (i & Hc & Himg) _ IH]; [by inversion 1|].
  intros Hbad.
  change (mapM (annotate names) (r :: l))
    with (y ← annotate names r; k ← mapM (annotate names) l; mret (y :: k)).
  destruct (decide (in_range names i)) as [Hr|Hr].
  - destruct (annotatable_inr names r) as [r' ->]; [by exists i|].
    apply Exists_cons in Hbad as [(j & Hj & Hnr)|Hbad]; [by simplify_eq|].
    simpl. by rewrite IH.
  - by rewrite (annotate_index_error names r i).
Qed.

(** X5: when the serialised records are well formed but one of them has
    a class index outside the category list, the whole request raises
    [IndexError] and returns no record at all. *)
Theorem out_of_range_class_fails demo image text thr seg
    segments predictions visualized_output instances :
  Py.str_split text ", " = inr segments →
  run_on_image demo (np_array image) (map clean_words_or_phrase segments) thr seg
    = inr (predictions, visualized_output) →
  predictions !! "instances" = Some instances →
  Forall (λ r : gmap string JSON,
            ∃ i, r !! "category_id" = Some (JInt i) ∧ is_Some (r !! "image_id"))
    (instances_to_coco_json instances 0) →
  Exists (λ r : gmap string JSON,
            ∃ i, r !! "category_id" = Some (JInt i) ∧
                 ¬ in_range (map clean_words_or_phrase segments) i)
    (instances_to_coco_json instances 0) →
  outcome (gradio_predict demo image text thr seg) = inl Py.IndexError.
Proof.
  intros [= <-] Hrun Hi Hall Hbad.
  rewrite gradio_predict_unfold. unfold outcome. simpl.
  rewrite Hrun. simpl. unfold Py.dict_get. rewrite Hi. simpl.
  by rewrite (mapM_index_error _ _ Hall Hbad).
Qed.

(** X6: the category list is indexed as a Python list.  In every record
    returned, a class index that is not negative selects the name at that
    position, and a negative one counts from the end of the list. *)
Theorem category_name_counts_from_end demo image text thr seg output records :
  outcome (gradio_predict demo image text thr seg) = inr (output, records) →
  ∃ names,
    normalize text = inr names ∧
    Forall (λ r : gmap string JSON,
              ∃ i name,
                r !! "category_id" = Some (JInt i) ∧
                r !! "category_name" = Some (JStr name) ∧
                in_range names i ∧
                ((0 ≤ i)%Z → names !! Z.to_nat i = Some name) ∧
                ((i < 0)%Z → names !! (length names - Z.to_nat (- i)) = Some name))
      records.
Proof.
  intros (segments & predictions & vis & instances & [= <-] & _ & _ & Hall & _)
    %gradio_predict_inr.
  eexists. split; [reflexivity|].
  induction Hall as [|r r' l k (i & name & Hc & Hn & _ & ->)%annotate_inr _ IH];
    constructor; [|done].
  exists i, name. apply list_index_inr in Hn as [Hr Hn]. split_and!.
  - by rewrite lookup_delete_ne, lookup_insert_ne.
  - by rewrite lookup_delete_ne, lookup_insert_eq.
  - done.
  - intros Hi. by rewrite Z.mod_small in Hn by (unfold in_range in Hr; lia).
  - intros Hi. unfold in_range in Hr. rewrite <-Hn. f_equal.
    rewrite <-(Z_mod_plus_full i 1), Z.mul_1_l, Z.mod_small by lia. lia.
Qed.

(** X7: the post-processing touches two keys only.  The records come back
    in the serialiser's order, one for one, and every key other than
    [image_id] and [category_name] (score, box, class index, mask) has
    the value the serialiser gave it. *)
Theorem records_keep_other_keys demo image text thr seg output records :
  outcome (gradio_predict demo image text thr seg) = inr (output, records) →
  ∃ instances,
    length records = length (instances_to_coco_json instances 0) ∧
    Forall2 (λ r r' : gmap string JSON,
               ∀ k, k ≠ "image_id" → k ≠ "category_name" → r' !! k = r !! k)
      (instances_to_coco_json instances 0) records.
Proof.
  intros (segments & predictions & vis & instances & _ & _ & _ & Hall & _)
    %gradio_predict_inr.
  exists instances. split; [symmetry; by eapply Forall2_length|].
  eapply Forall2_impl; [exact Hall|].
  intros r r' (i & name & _ & _ & _ & ->)%annotate_inr k Hk1 Hk2.
  by rewrite lookup_delete_ne, lookup_insert_ne.
Qed.

Lemma reverse_channels_involutive (a : Image) :
  reverse_channels (reverse_channels a) = a.
Proof.
  unfold reverse_channels. rewrite map_map.
  rewrite <-(map_id a) at 2. apply map_ext. intros row.
  rewrite map_map. rewrite <-(map_id row) at 2. apply map_ext. intros px.
  apply rev_involutive.
Qed.

(** X8: the image returned is the rendered image with the channels of
    every pixel in reverse order: same height, same width in every row,
    and reversing the channels once more gives the rendered image back. *)
Theorem output_image_reverses_channels demo image text thr seg output records :
  outcome (gradio_predict demo image text thr seg) = inr (output, records) →
  ∃ segments predictions visualized_output,
    Py.str_split text ", " = inr segments ∧
    run_on_image demo (np_array image) (map clean_words_or_phrase segments) thr seg
      = inr (predictions, visualized_output) ∧
    reverse_channels output = visualized_output ∧
    Forall2 (λ row row', Forall2 (λ px px', px' = rev px) row row')
      visualized_output output.
Proof.
  intros (segments & predictions & vis & instances & Hs & Hrun & _ & _ & ->)
    %gradio_predict_inr.
  exists segments, predictions, vis. split_and!; [done..| |].
  - apply reverse_channels_involutive.
  - unfold reverse_channels. apply Forall2_fmap_r, Forall_Forall2_diag, Forall_true.
    intros row. apply Forall2_fmap_r, Forall_Forall2_diag, Forall_true. done.
Qed.
End Serialisation.

(** ** Further properties of start-up and of the form *)

Section Form.
Context `{Collaborators}.

Lemma main_launched args tr app :
  main args = (tr, inr app) → tr = [EvLaunch].
Proof.
  intros Hmain. pose proof (main_outcome args) as Hout. rewrite Hmain in Hout.
  destruct (load_model args); [done|].
  destruct Hout as [[e ?]|(app' & ? & _)]; by simplify_eq.
Qed.





(** X11: pressing Submit on the form as first displayed calls the detector
    with no image (numpy's wrapping of [None]), the class names of the
    default text, the threshold [0.5] and segmentation off. *)
Theorem first_submit_uses_defaults args tr app :
  main args = (tr, inr app) →
  trace (process args [Click Form.submit]) =
    [EvLaunch;
     EvInference (demo app) NdObject
       (map clean_words_or_phrase (Py.split_from ", " 0 "" (coco_categories app)))
       half false].
Proof.
  intros Hmain. pose proof (main_launched _ _ _ Hmain) as ->.
  unfold process, mbind, M_bind. rewrite Hmain. simpl.
  destruct (initial_values app) as (-> & -> & -> & _ & ->).
  rewrite gradio_predict_unfold. simpl.
  match goal with
  | |- context [match ?r with inl _ => _ | inr _ => _ end] =>
      by destruct r as [e|[output records]]
  end.
Qed.

(** X12: pressing Clear twice leaves the form as pressing it once. *)
Theorem clear_is_idempotent app st :
  ∃ st1 st2,
    handle app st (Click Form.clear) = ([], inr st1) ∧
    handle app st1 (Click Form.clear) = ([], inr st2) ∧
    ∀ c, st2 c = st1 c.
Proof.
  eexists _, _. split; [apply clear_state|]. split; [apply clear_state|].
  intros c.
  unfold Form.set_outputs, Form.clear_outputs, Form.clear_fn, Form.update.
  destruct c; simpl; try done.
  - apply insert_insert_eq.
  - apply insert_insert_eq.
  - apply insert_insert_eq.
  - by rewrite (assoc_L (∪)), (idemp_L (∪)).
  - by rewrite (assoc_L (∪)), (idemp_L (∪)).
Qed.

(** X13: what the two buttons leave alone.  Submit changes nothing but the
    output image and the JSON results; Clear never changes the output
    image. *)
Theorem buttons_leave_the_rest app st :
  (∃ tr st',
     handle app st (Click Form.submit) = (tr, inr st') ∧
     ∀ c, c ≠ Form.output_image → c ≠ Form.json_results → st' c = st c) ∧
  (∃ st',
     handle app st (Click Form.clear) = ([], inr st') ∧
     st' Form.output_image = st Form.output_image).
Proof.
  split.
  - simpl. rewrite gradio_predict_unfold. simpl.
    match goal with
    | |- context [match ?r with inl _ => _ | inr _ => _ end] =>
        destruct r as [e|[output records]]
    end.
    + by eexists _, _.
    + eexists _, _. split; [reflexivity|].
      intros c Hc1 Hc2. by destruct c.
  - eexists. split; [apply clear_state|done].
Qed.

Lemma apply_own_block (b : Form.Block) (props : gmap string Form.Value) k :
  props !! k = Form.initial_props b !! k →
  Form.apply_output (Form.OutBlock b) props !! k = Form.initial_props b !! k.
Proof.
  unfold Form.apply_output, Form.initial_props. intros Hk.
  rewrite lookup_union, Hk, !lookup_union.
  by destruct (Form.constructor_args b !! k), (Form.default_props (Form.kind b) !! k).
Qed.

Lemma submit_state app st :
  handle app st (Click Form.submit) =
    let '(tr, r) :=
      gradio_predict (demo app)
        (as_image (Form.value st Form.image))
        (as_text (Form.value st Form.input_text))
        (as_number (Form.value st Form.score_thr))
        (as_bool (Form.value st Form.with_segmentation)) in
    match r with
    | inr (output, records) =>
        (tr, inr (Form.set_outputs Form.submit_outputs
                    [Form.OutValue (Form.VImage output);
                     Form.OutValue (Form.VJson records)] st))
    | inl _ => (tr, inr st)
    end.
Proof. reflexivity. Qed.

Lemma handle_layout_kept app st a tr st' :
  layout_kept app st →
  handle app st a = (tr, inr st') →
  layout_kept app st'.
Proof.
  intros Hst. destruct a as [c v|c].
  - simpl. intros [= _ <-] c0 k Hk.
    destruct (editable c && Form.visible st c); [|by apply Hst].
    unfold Form.update. case_decide; [|by apply Hst].
    rewrite lookup_insert_ne by done. by apply Hst.
  - destruct c; try (intros [= _ <-]; exact Hst).
    + rewrite submit_state, gradio_predict_unfold. cbv beta iota zeta.
      match goal with
      | |- context [match ?r with inl _ => _ | inr _ => _ end] =>
          destruct r as [e|[output records]]
      end.
      * intros [= _ <-]. exact Hst.
      * intros [= _ <-] c0 k Hk. rewrite <-(Hst c0 k Hk).
        unfold Form.update, Form.apply_output.
        destruct c0; simpl; by rewrite ?lookup_insert_ne.
    + rewrite clear_state. intros [= _ <-] c0 k Hk.
      destruct (decide (c0 = Form.with_segmentation)) as [->|Hc1].
      { change (initial_state app Form.with_segmentation) with
          (Form.initial_props
             (Form.blocks SAM2_AVAILABLE (coco_categories app) Form.with_segmentation)).
        apply apply_own_block. by apply Hst. }
      destruct (decide (c0 = Form.json_results)) as [->|Hc2].
      { change (initial_state app Form.json_results) with
          (Form.initial_props
             (Form.blocks SAM2_AVAILABLE (coco_categories app) Form.json_results)).
        apply apply_own_block. by apply Hst. }
      rewrite <-(Hst c0 k Hk).
      unfold Form.set_outputs, Form.clear_outputs, Form.clear_fn, Form.update,
        Form.apply_output.
      destruct c0; simpl; try done; by rewrite ?lookup_insert_ne.
Qed.

(** X14: whatever the user does, only the values of the components
    change: labels, slider bounds and visibility stay as constructed.  In
    particular a component is visible after any sequence of actions
    exactly when it was visible at the start. *)
Theorem layout_never_changes app actions :
  ∃ tr st,
    serve app (initial_state app) actions = (tr, inr st) ∧
    layout_kept app st ∧
    ∀ c, Form.visible st c = Form.visible (initial_state app) c.
Proof.
  assert (∀ st0, layout_kept app st0 →
            ∃ tr st, serve app st0 actions = (tr, inr st) ∧ layout_kept app st)
    as Hserve.
  { induction actions as [|a actions IH]; intros st0 Hst0.
    - by eexists _, _.
    - simpl. destruct (handle_outcome app st0 a) as (tr1 & st1 & Hh & _).
      destruct (IH st1) as (tr2 & st2 & Hs & Hst2).
      { by eapply handle_layout_kept. }
      unfold mbind, M_bind. rewrite Hh, Hs. by eexists _, _. }
  destruct (Hserve (initial_state app)) as (tr & st & Hs & Hst); [done|].
  exists tr, st. split_and!; [done..|].
  intros c. unfold Form.visible. by rewrite Hst.
Qed.
End Form.

(** *** Examples for the further properties *)

(** With two categories and the threshold [0.3] the third example
    detection (class 2) is kept and the request raises; at [0.5] it is
    pruned and the same request succeeds. *)
Lemma out_of_range_class_fails_example :
  outcome (@gradio_predict world some_demo (Some some_image) "person, bus"
             (frac 3 10) false) = inl Py.IndexError ∧
  ∃ result,
    outcome (@gradio_predict world some_demo (Some some_image) "person, bus"
               half false) = inr result.
Proof.
  split; [|by eexists].
  eapply (@out_of_range_class_fails world some_demo (Some some_image) "person, bus"
            (frac 3 10) false).
  - reflexivity.
  - reflexivity.
  - reflexivity.
  - repeat constructor; eexists; (split; [reflexivity|by eexists]).
  - do 2 apply Exists_cons_tl. apply Exists_cons_hd.
    exists 2%Z. split; [reflexivity|]. unfold in_range. rewrite length_map. simpl. lia.
Defined.

(** The class index [-1] names the last category. *)
Lemma category_name_counts_from_end_example :
  ∃ output records,
    outcome (@gradio_predict last_class_world some_demo (Some some_image)
               "person, bus" half false) = inr (output, records) ∧
    (∃ r, records = [r] ∧ r !! "category_id" = Some (JInt (-1)) ∧
          r !! "category_name" = Some (JStr "bus")) ∧
    ∃ names,
      @normalize last_class_world "person, bus" = inr names ∧
      Forall (λ r : gmap string JSON,
                ∃ i name,
                  r !! "category_id" = Some (JInt i) ∧
                  r !! "category_name" = Some (JStr name) ∧
                  in_range names i ∧
                  ((0 ≤ i)%Z → names !! Z.to_nat i = Some name) ∧
                  ((i < 0)%Z → names !! (length names - Z.to_nat (- i)) = Some name))
        records.
Proof.
  eexists _, _. split; [reflexivity|].
  split; [eexists; split; [reflexivity|by split]|].
  eapply (@category_name_counts_from_end last_class_world some_demo (Some some_image)
            "person, bus" half false).
  reflexivity.
Defined.

(** The request of the spec's example keeps score and box of both
    records. *)
Lemma records_keep_other_keys_example :
  ∃ output records,
    outcome (@gradio_predict world some_demo (Some some_image)
               "person, bus, bicycle" half false) = inr (output, records) ∧
    length records = 2 ∧
    ∃ instances,
      length records = length (@instances_to_coco_json world instances 0) ∧
      Forall2 (λ r r' : gmap string JSON,
                 ∀ k, k ≠ "image_id" → k ≠ "category_name" → r' !! k = r !! k)
        (@instances_to_coco_json world instances 0) records.
Proof.
  eexists _, _. split; [reflexivity|]. split; [reflexivity|].
  eapply (@records_keep_other_keys world some_demo (Some some_image)
            "person, bus, bicycle" half false).
  reflexivity.
Defined.

(** The example image, one row of a red and a green pixel, comes back with
    the channels reversed. *)
Lemma output_image_reverses_channels_example :
  ∃ output records,
    outcome (@gradio_predict world some_demo (Some some_image)
               "person, bus, bicycle" half false) = inr (output, records) ∧
    output = [[[0; 0; 255]; [0; 255; 0]]]%Z ∧
    ∃ segments predictions visualized_output,
      Py.str_split "person, bus, bicycle" ", " = inr segments ∧
      @run_on_image world some_demo (np_array (Some some_image))
        (map (@clean_words_or_phrase world) segments) half false
        = inr (predictions, visualized_output) ∧
      reverse_channels output = visualized_output ∧
      Forall2 (λ row row', Forall2 (λ px px', px' = rev px) row row')
        visualized_output output.
Proof.
  eexists _, _. split; [reflexivity|]. split; [reflexivity|].
  eapply (@output_image_reverses_channels world some_demo (Some some_image)
            "person, bus, bicycle" half false).
  reflexivity.
Defined.


(** The first request of the example world. *)
Lemma first_submit_uses_defaults_example :
  trace (@process world Args.defaults [Click Form.submit]) =
    [EvLaunch;
     EvInference (demo default_app) NdObject ["person"; "bicycle"; "car"] half false].
Proof.
  exact (@first_submit_uses_defaults world Args.defaults [EvLaunch] default_app eq_refl).
Defined.

